(** * Youtube_Trend_Analysis: the ingestion and feature-derivation pipeline

    A shallow embedding of [youtube_analysis_streamlit.py]: the duration
    normaliser ([convert_duration], [duration_to_seconds]), the trending
    fetcher ([get_trending_videos]) and the feature lambdas ([week],
    [time_slot], [video_length], [description_type]).

    Conventions.
    - Python [int] is [Z]; Python [str] is [string] (ASCII text).
    - A raised exception is [None] (for [ValueError] out of [int] and of
      tuple unpacking) or an [Err] carrying the exception's name.
    - Python's optional limit on the number of digits of an integer
      literal conversion ([sys.set_int_max_str_digits]) is not modelled. *)

From Stdlib Require Import ZArith Lia List Bool Ascii String.
From Stdlib Require Import Decimal DecimalFacts DecimalString DecimalPos DecimalN DecimalZ.
Import ListNotations.

#[local] Open Scope string_scope.
#[local] Open Scope Z_scope.

(** ** Python built-ins used by the script *)

Module Py.

(** [str.isspace] on one ASCII character: TAB, LF, VT, FF, CR, the four
    separators 0x1c-0x1f and the space. *)
Definition isspace (c : ascii) : bool :=
  let n := nat_of_ascii c in
  ((9 <=? n) && (n <=? 13) || (28 <=? n) && (n <=? 32))%nat.

Definition isdigit (c : ascii) : bool :=
  let n := nat_of_ascii c in ((48 <=? n) && (n <=? 57))%nat.

Definition digit_value (c : ascii) : Z := Z.of_nat (nat_of_ascii c) - 48.

Fixpoint string_forall (p : ascii -> bool) (s : string) : bool :=
  match s with
  | EmptyString => true
  | String c r => p c && string_forall p r
  end.

Fixpoint lstrip (s : string) : string :=
  match s with
  | EmptyString => EmptyString
  | String c r => if isspace c then lstrip r else s
  end.

Fixpoint rstrip (s : string) : string :=
  match s with
  | EmptyString => EmptyString
  | String c r =>
      match rstrip r with
      | EmptyString => if isspace c then EmptyString else String c EmptyString
      | r' => String c r'
      end
  end.

(** [s.strip()] *)
Definition strip (s : string) : string := rstrip (lstrip s).

(** [s.split(sep)] for a one-character separator: never the empty list. *)
Fixpoint split (sep : ascii) (s : string) : list string :=
  match s with
  | EmptyString => [EmptyString]
  | String c r =>
      if Ascii.eqb c sep then EmptyString :: split sep r
      else match split sep r with
           | h :: t => String c h :: t
           | [] => [String c EmptyString]
           end
  end.

(** The digit part of an integer literal: decimal digits, any two of them
    separated by at most one underscore; [prev] tells whether the character
    just read was a digit. *)
Fixpoint digits_value (s : string) (acc : Z) (prev : bool) : option Z :=
  match s with
  | EmptyString => if prev then Some acc else None
  | String c r =>
      if isdigit c then digits_value r (10 * acc + digit_value c) true
      else if Ascii.eqb c "_" then
             if prev then digits_value r acc false else None
      else None
  end.

(** [int(s)] in base 10: surrounding whitespace is dropped, one sign is
    allowed; [None] is [ValueError]. *)
Definition int (s : string) : option Z :=
  match strip s with
  | String "-" r => option_map Z.opp (digits_value r 0 false)
  | String "+" r => digits_value r 0 false
  | r => digits_value r 0 false
  end.

(** [str(n)], which is also [f"{n}"]. *)
Definition str (n : Z) : string := NilEmpty.string_of_int (Z.to_int n).

(** [f"{n:02d}"]: sign-aware zero padding to width 2. *)
Definition format_02d (n : Z) : string :=
  if (0 <=? n) && (n <? 10) then String "0" (str n) else str n.

(** [s.count(c)] for one character. *)
Fixpoint count (c : ascii) (s : string) : nat :=
  match s with
  | EmptyString => O
  | String a r => if Ascii.eqb a c then S (count c r) else count c r
  end.

(** [len(s)] *)
Definition len (s : string) : Z := Z.of_nat (String.length s).

(** [l[:n]]: a negative bound counts from the end of the list. *)
Definition slice_to {A} (l : list A) (n : Z) : list A :=
  if 0 <=? n then firstn (Z.to_nat n) l
  else firstn (Z.to_nat (Z.of_nat (List.length l) + n)) l.

End Py.

(** ** Duration normaliser *)

(** [datetime.timedelta], normalised as CPython keeps it:
    [0 <= seconds < 86400] and [0 <= microseconds < 10^6]. *)
Record timedelta := mk_timedelta
  { days : Z; seconds : Z; microseconds : Z }.

(** The value of [timedelta.total_seconds()] counted in microseconds.
    Python returns it as a float of seconds; the float and the arithmetic
    on it below are exact when [microseconds] is 0, a whole number of
    seconds of a [timedelta] being below 2^53. *)
Definition total_microseconds (d : timedelta) : Z :=
  (days d * 86400 + seconds d) * 1000000 + microseconds d.

(** Lines 58-61 of [convert_duration]: [total_sec // 60] and
    [total_sec % 60] (floor division, remainder of the sign of 60),
    truncated by [int], then the f-string. *)
Definition display (duration : timedelta) : string :=
  let total_us := total_microseconds duration in
  let mins := total_us / 60000000 in
  let secs := (total_us mod 60000000) / 1000000 in
  Py.str mins ++ ":" ++ Py.format_02d secs.

(** [duration_to_seconds]: the unpacking of [map(int, s.split(':'))] needs
    exactly two fields, each accepted by [int]. *)
Definition duration_to_seconds (duration_str : string) : option Z :=
  match Py.split ":" duration_str with
  | [a; b] =>
      match Py.int a, Py.int b with
      | Some minutes, Some seconds => Some (minutes * 60 + seconds)
      | _, _ => None
      end
  | _ => None
  end.


(** *** [isodate.parse_duration]

    The library is not part of the repository; this is its designator
    form, [[+-]P[nY][nM][nW][nD][T[nH][nM][nS]]], with whole-number
    components. Strings the library may accept in another way (a decimal
    fraction in a component, the alternative [Pyyyy-mm-ddThh:mm:ss]
    format) are answered [OutsideModel]: nothing is claimed about them. *)

Inductive error :=
| ISO8601Error
| OverflowError
| KeyError (key : string)
| TypeError
| HttpError (status : Z)
| OutsideModel.

Inductive result (A : Type) :=
| Ok (a : A)
| Err (e : error).
Arguments Ok {A} a.
Arguments Err {A} e.

Definition bind {A B} (r : result A) (k : A -> result B) : result B :=
  match r with
  | Ok a => k a
  | Err e => Err e
  end.

Notation "x <- r ;; k" := (bind r (fun x => k))
  (at level 61, r at next level, right associativity).

(** The named groups of the library's regular expression. *)
Record groups := mk_groups
  { g_years : Z; g_months : Z; g_weeks : Z; g_days : Z;
    g_hours : Z; g_minutes : Z; g_seconds : Z }.

Definition no_groups : groups := mk_groups 0 0 0 0 0 0 0.

Inductive scan_result :=
| Match (g : groups)
| NoMatch
| Fraction.

(** One pass over what follows [P]. [stage] is the position reached in the
    regular expression: 0 to 3 before [Y], [M], [W], [D]; 4 after [D];
    5 to 7 before [H], [M], [S] once [T] was read; 8 after [S]. [cur] is
    the number being read. *)
Fixpoint scan (s : string) (stage : nat) (cur : option Z) (g : groups)
  : scan_result :=
  match s with
  | EmptyString => match cur with None => Match g | Some _ => NoMatch end
  | String c r =>
      if Py.isdigit c then
        scan r stage
          (Some (10 * match cur with Some v => v | None => 0 end
                 + Py.digit_value c)) g
      else
        match cur with
        | None =>
            if Ascii.eqb c "T" && (stage <=? 4)%nat then scan r 5%nat None g
            else NoMatch
        | Some v =>
            if Ascii.eqb c "Y" then
              if (stage <=? 0)%nat
              then scan r 1%nat None
                     (mk_groups v (g_months g) (g_weeks g) (g_days g)
                        (g_hours g) (g_minutes g) (g_seconds g))
              else NoMatch
            else if Ascii.eqb c "M" then
              if (stage <=? 1)%nat
              then scan r 2%nat None
                     (mk_groups (g_years g) v (g_weeks g) (g_days g)
                        (g_hours g) (g_minutes g) (g_seconds g))
              else if (5 <=? stage)%nat && (stage <=? 6)%nat
              then scan r 7%nat None
                     (mk_groups (g_years g) (g_months g) (g_weeks g) (g_days g)
                        (g_hours g) v (g_seconds g))
              else NoMatch
            else if Ascii.eqb c "W" then
              if (stage <=? 2)%nat
              then scan r 3%nat None
                     (mk_groups (g_years g) (g_months g) v (g_days g)
                        (g_hours g) (g_minutes g) (g_seconds g))
              else NoMatch
            else if Ascii.eqb c "D" then
              if (stage <=? 3)%nat
              then scan r 4%nat None
                     (mk_groups (g_years g) (g_months g) (g_weeks g) v
                        (g_hours g) (g_minutes g) (g_seconds g))
              else NoMatch
            else if Ascii.eqb c "H" then
              if (stage =? 5)%nat
              then scan r 6%nat None
                     (mk_groups (g_years g) (g_months g) (g_weeks g) (g_days g)
                        v (g_minutes g) (g_seconds g))
              else NoMatch
            else if Ascii.eqb c "S" then
              if (5 <=? stage)%nat && (stage <=? 7)%nat
              then scan r 8%nat None
                     (mk_groups (g_years g) (g_months g) (g_weeks g) (g_days g)
                        (g_hours g) (g_minutes g) v)
              else NoMatch
            else if Ascii.eqb c "." || Ascii.eqb c "," then Fraction
            else NoMatch
        end
  end.

(** [$] of the regular expression also matches before one final newline. *)
Fixpoint chomp (s : string) : string :=
  match s with
  | EmptyString => EmptyString
  | String c EmptyString =>
      if Ascii.eqb c "010" then EmptyString else s
  | String c r => String c (chomp r)
  end.

(** The sign and the period. [P] must be followed by something. *)
Definition match_period (s : string) : bool * scan_result :=
  let (negative, p) :=
    match chomp s with
    | String "-" r => (true, r)
    | String "+" r => (false, r)
    | r => (false, r)
    end in
  match p with
  | String "P" EmptyString => (negative, NoMatch)
  | String "P" body => (negative, scan body 0%nat None no_groups)
  | _ => (negative, NoMatch)
  end.

(** [timedelta(seconds=t)] for a whole number of seconds: normalised, and
    refused when the day count leaves the type's range. *)
Definition timedelta_of_seconds (t : Z) : result timedelta :=
  let d := t / 86400 in
  if Z.abs d <=? 999999999
  then Ok (mk_timedelta d (t mod 86400) 0)
  else Err OverflowError.

(** What [parse_duration] returns. The library returns a bare [timedelta]
    when years and months are 0 and a [Duration] otherwise; [Duration]
    forwards [total_seconds] to its [tdelta], so one record serves both. *)
Record Duration := mk_Duration
  { years : Z; months : Z; tdelta : timedelta }.

Definition parse_duration (datestring : string) : result Duration :=
  match match_period datestring with
  | (_, Fraction) => Err OutsideModel
  | (_, NoMatch) =>
      match datestring with
      | String "P" _ => Err OutsideModel
      | _ => Err ISO8601Error
      end
  | (negative, Match g) =>
      let t := g_weeks g * 604800 + g_days g * 86400 + g_hours g * 3600
               + g_minutes g * 60 + g_seconds g in
      ret <- timedelta_of_seconds t ;;
      if negative
      then neg <- timedelta_of_seconds (- t) ;;
           Ok (mk_Duration (- g_years g) (- g_months g) neg)
      else Ok (mk_Duration (g_years g) (g_months g) ret)
  end.

(** [convert_duration], lines 55-61. *)
Definition convert_duration (duration_str : string) : result string :=
  duration <- parse_duration duration_str ;;
  Ok (display (tdelta duration)).

(** ** Trending fetcher *)

(** A decoded JSON value, as the API client hands it to the script; the
    keys of an object are distinct. *)
#[local] Unset Elimination Schemes.
Inductive json :=
| JNull
| JBool (b : bool)
| JNum (n : Z)
| JStr (s : string)
| JArr (l : list json)
| JObj (members : list (string * json)).
#[local] Set Elimination Schemes.

Fixpoint lookup (key : string) (members : list (string * json)) : option json :=
  match members with
  | [] => None
  | (k, v) :: rest => if String.eqb k key then Some v else lookup key rest
  end.

(** [d[key]] *)
Definition getitem (d : json) (key : string) : result json :=
  match d with
  | JObj members =>
      match lookup key members with
      | Some v => Ok v
      | None => Err (KeyError key)
      end
  | _ => Err TypeError
  end.

(** [d.get(key, default)] *)
Definition get (d : json) (key : string) (default : json) : result json :=
  match d with
  | JObj members =>
      match lookup key members with
      | Some v => Ok v
      | None => Ok default
      end
  | _ => Err TypeError
  end.

(** The dictionary built at lines 26-43, one field per key. *)
Record video_details := mk_video_details
  { video_id : json; title : json; description : json; published_at : json;
    channel_id : json; channel_title : json; category_id : json; tags : json;
    duration : json; definition : json; caption : json;
    view_count : json; like_count : json; dislike_count : json;
    favorite_count : json; comment_count : json }.

(** Lines 26-43: the fields are read in the order of the dictionary display,
    so the first missing key is the one reported. *)
Definition make_video_details (item : json) : result video_details :=
  id <- getitem item "id" ;;
  snippet <- getitem item "snippet" ;;
  v_title <- getitem snippet "title" ;;
  v_description <- getitem snippet "description" ;;
  v_published_at <- getitem snippet "publishedAt" ;;
  v_channel_id <- getitem snippet "channelId" ;;
  v_channel_title <- getitem snippet "channelTitle" ;;
  v_category_id <- getitem snippet "categoryId" ;;
  v_tags <- get snippet "tags" (JArr []) ;;
  contentDetails <- getitem item "contentDetails" ;;
  v_duration <- getitem contentDetails "duration" ;;
  v_definition <- getitem contentDetails "definition" ;;
  v_caption <- get contentDetails "caption" (JStr "false") ;;
  statistics <- getitem item "statistics" ;;
  v_view_count <- get statistics "viewCount" (JNum 0) ;;
  v_like_count <- get statistics "likeCount" (JNum 0) ;;
  v_dislike_count <- get statistics "dislikeCount" (JNum 0) ;;
  v_favorite_count <- get statistics "favoriteCount" (JNum 0) ;;
  v_comment_count <- get statistics "commentCount" (JNum 0) ;;
  Ok (mk_video_details id v_title v_description v_published_at v_channel_id
        v_channel_title v_category_id v_tags v_duration v_definition
        v_caption v_view_count v_like_count v_dislike_count
        v_favorite_count v_comment_count).

(** The [for] loop of lines 25-44: one record appended per item. *)
Fixpoint append_items (videos : list video_details) (items : list json)
  : result (list video_details) :=
  match items with
  | [] => Ok videos
  | item :: rest =>
      details <- make_video_details item ;;
      append_items (videos ++ [details]) rest
  end.

(** A request of the API client, seen through what the script does with
    it: [execute()] raises or answers a page of items, and [list_next]
    gives the request of the following page, or [None] after the last one.
    The type is inductive: paging ends. *)
#[local] Unset Elimination Schemes.
Inductive request :=
| Raises (e : error)
| Page (items : list json) (list_next : option request).
#[local] Set Elimination Schemes.

(** The [while] loop of lines 23-47, entered with a request that is not
    [None]. *)
Fixpoint fetch_loop (rq : request) (videos : list video_details)
  (max_results : Z) {struct rq} : result (list video_details) :=
  if Z.of_nat (List.length videos) <? max_results then
    match rq with
    | Raises e => Err e
    | Page items next =>
        videos' <- append_items videos items ;;
        match next with
        | None => Ok videos'
        | Some rq' => fetch_loop rq' videos' max_results
        end
    end
  else Ok videos.

Section Fetcher.

(** What the platform answers to the [mostPopular] listing of region US,
    50 per page, for the service built with a developer key. *)
Variable youtube : string -> request.

(** [get_trending_videos], lines 9-49. *)
Definition get_trending_videos (api_key : string) (max_results : Z)
  : result (list video_details) :=
  videos <- fetch_loop (youtube api_key) [] max_results ;;
  Ok (Py.slice_to videos max_results).

End Fetcher.

(** The items of every page of a listing, in the order served. *)
Fixpoint all_items (rq : request) : list json :=
  match rq with
  | Raises _ => []
  | Page items next =>
      items ++ match next with None => [] | Some rq' => all_items rq' end
  end.

(** No page of the listing raises. *)
Fixpoint serves (rq : request) : bool :=
  match rq with
  | Raises _ => false
  | Page _ next => match next with None => true | Some rq' => serves rq' end
  end.

(** [decodes items records]: every item yields its record, position by
    position. *)
Definition decodes (items : list json) (records : list video_details) : Prop :=
  Forall2 (fun item r => make_video_details item = Ok r) items records.

Definition has_key (d : json) (key : string) : bool :=
  match d with
  | JObj members =>
      match lookup key members with Some _ => true | None => false end
  | _ => false
  end.

(** The keys that lines 27-36 read with a subscript are present, and
    [statistics] is an object: what the platform documents for a video
    resource asked with [part='snippet,contentDetails,statistics']. *)
Definition well_formed_item (item : json) : bool :=
  match getitem item "id", getitem item "snippet",
        getitem item "contentDetails", getitem item "statistics" with
  | Ok _, Ok snippet, Ok contentDetails, Ok (JObj _) =>
      has_key snippet "title" && has_key snippet "description"
      && has_key snippet "publishedAt" && has_key snippet "channelId"
      && has_key snippet "channelTitle" && has_key snippet "categoryId"
      && has_key contentDetails "duration"
      && has_key contentDetails "definition"
  | _, _, _, _ => false
  end.

(** A video resource with the given id and statistics, for the examples. *)
Definition sample_item (id : string) (statistics : list (string * json))
  : json :=
  JObj [("kind", JStr "youtube#video");
        ("id", JStr id);
        ("snippet",
         JObj [("publishedAt", JStr "2024-05-03T20:00:00Z");
               ("channelId", JStr "UC0");
               ("title", JStr "A video");
               ("description", JStr "");
               ("channelTitle", JStr "A channel");
               ("categoryId", JStr "10")]);
        ("contentDetails",
         JObj [("duration", JStr "PT7M0S");
               ("definition", JStr "hd");
               ("caption", JStr "false")]);
        ("statistics", JObj statistics)].

(** A listing of three videos on one page; the second one comes without
    like and dislike counts, the third without any count. *)
Definition sample_listing : request :=
  Page [sample_item "a" [("viewCount", JStr "900"); ("likeCount", JStr "80");
                         ("dislikeCount", JStr "1");
                         ("favoriteCount", JStr "0");
                         ("commentCount", JStr "7")];
        sample_item "b" [("viewCount", JStr "500");
                         ("favoriteCount", JStr "0");
                         ("commentCount", JStr "3")];
        sample_item "c" []]
       None.

Definition sample_records : list video_details :=
  match append_items [] (all_items sample_listing) with
  | Ok records => records
  | Err _ => []
  end.

(** ** Feature deriver *)

(** A timezone-aware [pandas.Timestamp] at a whole second: the instant in
    seconds since 1970-01-01T00:00:00Z and the offset of its zone. *)
Record Timestamp := mk_Timestamp { epoch : Z; utcoffset : Z }.

(** [pd.to_datetime(..., utc=True)] of an instant. *)
Definition to_datetime_utc (instant : Z) : Timestamp := mk_Timestamp instant 0.

(** [.dt.tz_convert('Asia/Kolkata')]: the same instant at UTC+05:30, the
    zone's only offset since 1945-10-15. *)
Definition tz_convert_Asia_Kolkata (t : Timestamp) : Timestamp :=
  mk_Timestamp (epoch t) 19800.

(** [.dt.hour] and [.dt.dayofweek] (Monday is 0; 1970-01-01 was a
    Thursday), both read on the wall clock of the timestamp's zone. *)
Definition hour (t : Timestamp) : Z :=
  ((epoch t + utcoffset t) mod 86400) / 3600.

Definition dayofweek (t : Timestamp) : Z :=
  ((epoch t + utcoffset t) / 86400 + 3) mod 7.

(** Lines 154 and 156: the column [published_at] after both assignments. *)
Definition published_at_local (instant : Z) : Timestamp :=
  tz_convert_Asia_Kolkata (to_datetime_utc instant).

(** The lambda of line 159. *)
Definition week_of_dayofweek (x : Z) : string :=
  if x >=? 5 then "Weekend" else "Weekday".

(** The lambda of line 160. *)
Definition time_slot_of_hour (x : Z) : string :=
  if (5 <=? x) && (x <? 12) then "Morning"
  else if (12 <=? x) && (x <? 17) then "Noon"
  else "Night".

(** Lines 159 and 160 on one row. *)
Definition week (instant : Z) : string :=
  week_of_dayofweek (dayofweek (published_at_local instant)).

Definition time_slot (instant : Z) : string :=
  time_slot_of_hour (hour (published_at_local instant)).

(** The lambda of line 173, on the display string of line 166. *)
Definition video_length (x : string) : option string :=
  match duration_to_seconds x, duration_to_seconds "7:00" with
  | Some a, Some b => Some (if a <? b then "short" else "long")
  | _, _ => None
  end.

(** Line 174 on a description that is a string. *)
Definition description_len (v_description : string) : Z := Py.len v_description.

(** The lambda of line 175, on a character count. A description that is
    empty in the export file comes back as a missing value, whose length
    is not a number: that case is outside this definition. *)
Definition description_type (x : Z) : string :=
  if x <=? 300 then "short"
  else if (300 <? x) && (x <? 1500) then "medium"
  else "long".

(** ** Listings page by page *)

(** The request whose first pages are [pages], each followed by a next
    page, and that goes on as [rest]. *)
Fixpoint paged (pages : list (list json)) (rest : request) : request :=
  match pages with
  | [] => rest
  | items :: more => Page items (Some (paged more rest))
  end.

(** ** Category resolver *)

(** What [get_category_mapping] can raise: an exception of the fetcher's
    kinds, or the [ValueError] of [int] on a text that is no integer. *)
Inductive raised :=
| Raised (e : error)
| ValueError (text : string).

(** [int(v)] on a decoded JSON value. *)
Definition int_of_json (v : json) : raised + Z :=
  match v with
  | JStr s =>
      match Py.int s with
      | Some n => inr n
      | None => inl (ValueError s)
      end
  | JNum n => inr n
  | JBool b => inr (if b then 1 else 0)
  | _ => inl (Raised TypeError)
  end.

(** A Python [dict] keyed by integers, in insertion order. [d[k] = v]
    replaces the value of a key already there and appends a new key. *)
Fixpoint setitem (d : list (Z * json)) (k : Z) (v : json) : list (Z * json) :=
  match d with
  | [] => [(k, v)]
  | (k', v') :: rest =>
      if k' =? k then (k, v) :: rest else (k', v') :: setitem rest k v
  end.

(** [d.get(k)] *)
Fixpoint dict_get (d : list (Z * json)) (k : Z) : option json :=
  match d with
  | [] => None
  | (k', v) :: rest => if k' =? k then Some v else dict_get rest k
  end.

(** Lines 77-78: the id is converted first, then the title is read. *)
Definition category_entry (item : json) : raised + (Z * json) :=
  match getitem item "id" with
  | Err e => inl (Raised e)
  | Ok id =>
      match int_of_json id with
      | inl x => inl x
      | inr category_id =>
          match getitem item "snippet" with
          | Err e => inl (Raised e)
          | Ok snippet =>
              match getitem snippet "title" with
              | Err e => inl (Raised e)
              | Ok category_name => inr (category_id, category_name)
              end
          end
      end
  end.

(** The [for] loop of lines 76-79. *)
Fixpoint category_loop (items : list json) (category_mapping : list (Z * json))
  : raised + list (Z * json) :=
  match items with
  | [] => inr category_mapping
  | item :: rest =>
      match category_entry item with
      | inl x => inl x
      | inr (category_id, category_name) =>
          category_loop rest (setitem category_mapping category_id category_name)
      end
  end.

Section Resolver.

(** What [execute()] answers to the [videoCategories] listing of region
    US for the service built with a developer key: it raises, or gives the
    items of the response. *)
Variable categories : string -> result (list json).

(** [get_category_mapping], lines 68-80. *)
Definition get_category_mapping (api_key : string) : raised + list (Z * json) :=
  match categories api_key with
  | Err e => inl (Raised e)
  | Ok items => category_loop items []
  end.

End Resolver.

(** Line 271 on one row: [Series.map] with a dictionary gives a missing
    value for an id that is not a key. *)
Definition category_name (category_mapping : list (Z * json)) (category_id : Z)
  : option json :=
  dict_get category_mapping category_id.

(** [is_entry item entry]: lines 77-78 read [entry] from [item]. *)
Definition is_entry (item : json) (entry : Z * json) : Prop :=
  category_entry item = inr entry.

(** The title the last entry of key [k] carries, if any. *)
Definition last_title (entries : list (Z * json)) (k : Z) : option json :=
  option_map snd (find (fun e => fst e =? k) (List.rev entries)).

(** A category resource, for the examples. *)
Definition sample_category (id name : string) : json :=
  JObj [("kind", JStr "youtube#videoCategory");
        ("id", JStr id);
        ("snippet", JObj [("title", JStr name); ("assignable", JBool true)])].

Definition sample_categories : list json :=
  [sample_category "1" "Film & Animation";
   sample_category "10" "Music";
   sample_category "1" "Film"].

(** ** Auxiliary definitions of the proofs *)

(** Character classes of the strings [str] writes. *)
Definition not_space (c : ascii) : bool := negb (Py.isspace c).
Definition not_char (x c : ascii) : bool := negb (Ascii.eqb c x).

(** Horner evaluation of a numeral, most significant digit first. *)
Fixpoint uint_value (u : uint) (acc : Z) : Z :=
  match u with
  | Nil => acc
  | D0 r => uint_value r (10 * acc)
  | D1 r => uint_value r (10 * acc + 1)
  | D2 r => uint_value r (10 * acc + 2)
  | D3 r => uint_value r (10 * acc + 3)
  | D4 r => uint_value r (10 * acc + 4)
  | D5 r => uint_value r (10 * acc + 5)
  | D6 r => uint_value r (10 * acc + 6)
  | D7 r => uint_value r (10 * acc + 7)
  | D8 r => uint_value r (10 * acc + 8)
  | D9 r => uint_value r (10 * acc + 9)
  end.

(** * Properties *)

(** ** The code on a few inputs *)

Example duration_to_seconds_7_00 : duration_to_seconds "7:00" = Some 420.
Proof. reflexivity. Qed.

Example duration_to_seconds_lenient :
  duration_to_seconds " 1_0 :+5" = Some 605.
Proof. reflexivity. Qed.

Example duration_to_seconds_three_fields :
  duration_to_seconds "1:02:03" = None.
Proof. reflexivity. Qed.

Example duration_to_seconds_no_colon : duration_to_seconds "420" = None.
Proof. reflexivity. Qed.

Example display_negative : display (mk_timedelta (-1) 86395 0) = "-1:55".
Proof. reflexivity. Qed.

Example convert_duration_PT5M30S : convert_duration "PT5M30S" = Ok "5:30".
Proof. reflexivity. Qed.

Example convert_duration_P1DT2H : convert_duration "P1DT2H" = Ok "1560:00".
Proof. reflexivity. Qed.

Example convert_duration_negative : convert_duration "-PT5S" = Ok "-1:55".
Proof. reflexivity. Qed.

Example convert_duration_months : convert_duration "P2M" = Ok "0:00".
Proof. reflexivity. Qed.

Example convert_duration_not_iso : convert_duration "5M" = Err ISO8601Error.
Proof. reflexivity. Qed.

Example convert_duration_overflow :
  convert_duration "P1000000000D" = Err OverflowError.
Proof. reflexivity. Qed.

Example sample_records_counts :
  map (fun r => (view_count r, like_count r, dislike_count r)) sample_records
  = [(JStr "900", JStr "80", JStr "1");
     (JStr "500", JNum 0, JNum 0);
     (JNum 0, JNum 0, JNum 0)].
Proof. reflexivity. Qed.

Example get_trending_videos_two :
  get_trending_videos (fun _ => sample_listing) "key" 2
  = Ok (firstn 2 sample_records).
Proof. reflexivity. Qed.

Example get_trending_videos_raises :
  get_trending_videos (fun _ => Raises (HttpError 403)) "key" 200
  = Err (HttpError 403).
Proof. reflexivity. Qed.

Example get_category_mapping_sample :
  get_category_mapping (fun _ => Ok sample_categories) "key"
  = inr [(1, JStr "Film"); (10, JStr "Music")].
Proof. reflexivity. Qed.

Example get_category_mapping_raises :
  get_category_mapping (fun _ => Err (HttpError 403)) "key"
  = inl (Raised (HttpError 403)).
Proof. reflexivity. Qed.

Example category_name_absent :
  category_name [(1, JStr "Film"); (10, JStr "Music")] 2 = None.
Proof. reflexivity. Qed.

Example get_trending_videos_missing_key :
  get_trending_videos (fun _ => Page [JObj [("id", JStr "a")]] None) "key" 200
  = Err (KeyError "snippet").
Proof. reflexivity. Qed.


(** ** Characters and strings *)

Lemma isdigit_not_space c : Py.isdigit c = true -> Py.isspace c = false.
Proof. destruct c as [[] [] [] [] [] [] [] []]; vm_compute; congruence. Qed.

Lemma isdigit_not_colon c : Py.isdigit c = true -> Ascii.eqb c ":" = false.
Proof. destruct c as [[] [] [] [] [] [] [] []]; vm_compute; congruence. Qed.

Lemma string_forall_impl (p q : ascii -> bool) s :
  (forall c, p c = true -> q c = true) ->
  Py.string_forall p s = true -> Py.string_forall q s = true.
Proof.
  intros Hpq. induction s as [|c r IH]; simpl; [reflexivity|].
  intros H. apply andb_true_iff in H as [Hc Hr].
  rewrite (Hpq c Hc), (IH Hr). reflexivity.
Qed.

Lemma string_forall_app p a b :
  Py.string_forall p (a ++ b) =
  Py.string_forall p a && Py.string_forall p b.
Proof.
  induction a as [|c r IH]; simpl; [reflexivity|].
  rewrite IH. apply andb_assoc.
Qed.

Lemma lstrip_id s : Py.string_forall not_space s = true -> Py.lstrip s = s.
Proof.
  destruct s as [|c r]; simpl; [reflexivity|].
  unfold not_space at 1. destruct (Py.isspace c); simpl; [discriminate|reflexivity].
Qed.

Lemma rstrip_id s : Py.string_forall not_space s = true -> Py.rstrip s = s.
Proof.
  induction s as [|c r IH]; simpl; [reflexivity|].
  intros H. apply andb_true_iff in H as [Hc Hr].
  rewrite (IH Hr). unfold not_space in Hc.
  destruct (Py.isspace c); [discriminate|]. destruct r; reflexivity.
Qed.

Lemma strip_id s : Py.string_forall not_space s = true -> Py.strip s = s.
Proof.
  intros H. unfold Py.strip. rewrite (lstrip_id s H). apply rstrip_id, H.
Qed.

Lemma split_no_sep sep s :
  Py.string_forall (not_char sep) s = true -> Py.split sep s = [s].
Proof.
  induction s as [|c r IH]; simpl; [reflexivity|].
  intros H. apply andb_true_iff in H as [Hc Hr].
  unfold not_char in Hc. destruct (Ascii.eqb c sep); [discriminate|].
  rewrite (IH Hr). reflexivity.
Qed.

Lemma split_app sep a b :
  Py.string_forall (not_char sep) a = true ->
  Py.split sep (a ++ String sep b) = a :: Py.split sep b.
Proof.
  induction a as [|c r IH]; simpl.
  - intros _. rewrite Ascii.eqb_refl. reflexivity.
  - intros H. apply andb_true_iff in H as [Hc Hr].
    unfold not_char in Hc. destruct (Ascii.eqb c sep); [discriminate|].
    rewrite (IH Hr). reflexivity.
Qed.

Lemma count_no_char x s :
  Py.string_forall (not_char x) s = true -> Py.count x s = O.
Proof.
  induction s as [|c r IH]; simpl; [reflexivity|].
  intros H. apply andb_true_iff in H as [Hc Hr].
  unfold not_char in Hc. destruct (Ascii.eqb c x); [discriminate|]. auto.
Qed.

Lemma count_app x a b : Py.count x (a ++ b) = (Py.count x a + Py.count x b)%nat.
Proof.
  induction a as [|c r IH]; simpl; [reflexivity|].
  rewrite IH. destruct (Ascii.eqb c x); reflexivity.
Qed.

(** ** Decimal numerals: [int] reads back what [str] writes *)

Lemma uint_digits u :
  Py.string_forall Py.isdigit (NilEmpty.string_of_uint u) = true.
Proof. induction u; simpl; auto. Qed.

Lemma digits_value_uint u : forall acc prev,
  Py.digits_value (NilEmpty.string_of_uint u) acc prev =
  match u with
  | Nil => if prev then Some acc else None
  | _ => Some (uint_value u acc)
  end.
Proof.
  induction u; intros acc prev; try reflexivity;
    cbn [NilEmpty.string_of_uint Py.digits_value uint_value];
    (change (Py.isdigit _) with true; cbv iota);
    rewrite IHu; (change (Py.digit_value _) with 0
                  || change (Py.digit_value _) with 1
                  || change (Py.digit_value _) with 2
                  || change (Py.digit_value _) with 3
                  || change (Py.digit_value _) with 4
                  || change (Py.digit_value _) with 5
                  || change (Py.digit_value _) with 6
                  || change (Py.digit_value _) with 7
                  || change (Py.digit_value _) with 8
                  || change (Py.digit_value _) with 9);
    rewrite ?Z.add_0_r; destruct u; reflexivity.
Qed.

Lemma uint_value_of_lu d : forall d',
  uint_value d (Z.of_N (DecimalPos.Unsigned.of_lu d')) =
  Z.of_N (DecimalPos.Unsigned.of_lu (revapp d d')).
Proof.
  induction d; intros d'; cbn [uint_value revapp]; [reflexivity|..];
    rewrite <- IHd; f_equal; cbn [DecimalPos.Unsigned.of_lu]; lia.
Qed.

Lemma uint_value_of_uint d : uint_value d 0 = Z.of_N (N.of_uint d).
Proof.
  change 0 with (Z.of_N (DecimalPos.Unsigned.of_lu Nil)).
  rewrite uint_value_of_lu. unfold N.of_uint.
  rewrite DecimalPos.Unsigned.of_uint_alt. reflexivity.
Qed.

Lemma uint_no_space u :
  Py.string_forall not_space (NilEmpty.string_of_uint u) = true.
Proof.
  apply string_forall_impl with (p := Py.isdigit); [|apply uint_digits].
  intros c Hc. unfold not_space. rewrite (isdigit_not_space c Hc). reflexivity.
Qed.

Lemma uint_no_colon u :
  Py.string_forall (not_char ":") (NilEmpty.string_of_uint u) = true.
Proof.
  apply string_forall_impl with (p := Py.isdigit); [|apply uint_digits].
  intros c Hc. unfold not_char. rewrite (isdigit_not_colon c Hc). reflexivity.
Qed.

Lemma int_uint u :
  u <> Nil -> Py.int (NilEmpty.string_of_uint u) = Some (uint_value u 0).
Proof.
  intros Hu. unfold Py.int. rewrite (strip_id _ (uint_no_space u)).
  destruct u; [congruence|..];
    match goal with
    | |- _ = Some (uint_value ?d 0) =>
        transitivity (Py.digits_value (NilEmpty.string_of_uint d) 0 false);
        [reflexivity | exact (digits_value_uint d 0 false)]
    end.
Qed.

Lemma int_minus_uint u :
  u <> Nil ->
  Py.int (String "-" (NilEmpty.string_of_uint u)) = Some (- uint_value u 0).
Proof.
  intros Hu. unfold Py.int. rewrite strip_id.
  - rewrite digits_value_uint. destruct u; [congruence|..]; reflexivity.
  - cbn [Py.string_forall]. rewrite uint_no_space. reflexivity.
Qed.

Lemma uint_value_to_uint p : uint_value (Pos.to_uint p) 0 = Z.pos p.
Proof.
  rewrite uint_value_of_uint. unfold N.of_uint.
  rewrite DecimalPos.Unsigned.of_to. reflexivity.
Qed.

(** [int(str(n)) == n] for every integer. *)
Lemma int_str n : Py.int (Py.str n) = Some n.
Proof.
  unfold Py.str. destruct n as [|p|p]; cbn [Z.to_int NilEmpty.string_of_int].
  - reflexivity.
  - rewrite int_uint by apply DecimalPos.Unsigned.to_uint_nonnil.
    rewrite uint_value_to_uint. reflexivity.
  - rewrite int_minus_uint by apply DecimalPos.Unsigned.to_uint_nonnil.
    rewrite uint_value_to_uint. reflexivity.
Qed.

Lemma str_no_colon n : Py.string_forall (not_char ":") (Py.str n) = true.
Proof.
  unfold Py.str. destruct n as [|p|p]; cbn [Z.to_int NilEmpty.string_of_int].
  - reflexivity.
  - apply uint_no_colon.
  - cbn [Py.string_forall]. rewrite uint_no_colon. reflexivity.
Qed.

(** A check on every number below a bound, run once. *)
Lemma checked_below (ok : Z -> bool) (bound : nat) :
  forallb (fun k => ok (Z.of_nat k)) (seq 0 bound) = true ->
  forall n, 0 <= n < Z.of_nat bound -> ok n = true.
Proof.
  intros Hall n Hn. rewrite forallb_forall in Hall.
  specialize (Hall (Z.to_nat n)). rewrite Z2Nat.id in Hall by lia.
  apply Hall, in_seq. lia.
Qed.

Lemma format_02d_other n :
  ~ 0 <= n < 10 -> Py.format_02d n = Py.str n.
Proof.
  intros H. unfold Py.format_02d.
  destruct (Z.leb_spec 0 n), (Z.ltb_spec n 10); cbn [andb]; try reflexivity; lia.
Qed.

(** [int(f"{n:02d}") == n] for every integer. *)
Lemma int_format_02d n : Py.int (Py.format_02d n) = Some n.
Proof.
  destruct (Z.leb_spec 0 n) as [H0|H0]; [destruct (Z.ltb_spec n 10) as [H1|H1]|].
  - pose (ok := fun k => match Py.int (Py.format_02d k) with
                         | Some v => v =? k
                         | None => false
                         end).
    assert (Hok : ok n = true)
      by (apply (checked_below ok 10); [vm_compute; reflexivity | lia]).
    unfold ok in Hok. destruct (Py.int (Py.format_02d n)); [|discriminate].
    apply Z.eqb_eq in Hok. congruence.
  - rewrite format_02d_other by lia. apply int_str.
  - rewrite format_02d_other by lia. apply int_str.
Qed.

Lemma format_02d_no_colon n :
  Py.string_forall (not_char ":") (Py.format_02d n) = true.
Proof.
  unfold Py.format_02d. destruct ((0 <=? n) && (n <? 10)).
  - cbn [Py.string_forall]. rewrite str_no_colon. reflexivity.
  - apply str_no_colon.
Qed.

(** The two fields of a display string come apart at its colon. *)
Lemma split_display a b :
  Py.string_forall (not_char ":") a = true ->
  Py.string_forall (not_char ":") b = true ->
  Py.split ":" (a ++ ":" ++ b) = [a; b].
Proof.
  intros Ha Hb. change (":" ++ b) with (String ":" b).
  rewrite (split_app ":" a b Ha), (split_no_sep ":" b Hb). reflexivity.
Qed.

(** Reading back minutes and two-digit seconds, whatever their signs. *)
Lemma duration_to_seconds_mins_secs mins secs :
  duration_to_seconds (Py.str mins ++ ":" ++ Py.format_02d secs)
  = Some (mins * 60 + secs).
Proof.
  unfold duration_to_seconds.
  rewrite split_display by (apply str_no_colon || apply format_02d_no_colon).
  rewrite int_str, int_format_02d. reflexivity.
Qed.

Lemma mins_secs_total t :
  t / 60000000 * 60 + t mod 60000000 / 1000000 = t / 1000000.
Proof.
  rewrite (Z.div_mod t 60000000) at 3 by lia.
  replace (60000000 * (t / 60000000) + t mod 60000000)
    with (t / 60000000 * 60 * 1000000 + t mod 60000000) by lia.
  rewrite Z.div_add_l by lia. reflexivity.
Qed.

(** The round trip on a [timedelta]: sub-second parts are dropped. *)
Lemma duration_to_seconds_display d :
  duration_to_seconds (display d) = Some (total_microseconds d / 1000000).
Proof.
  unfold display. cbv zeta.
  rewrite duration_to_seconds_mins_secs, mins_secs_total. reflexivity.
Qed.

(** A positive number is written without a leading zero. *)
Lemma to_uint_no_leading_zero p r : Pos.to_uint p <> D0 r.
Proof.
  intros E.
  assert (Hn : unorm (Pos.to_uint p) = Pos.to_uint p).
  { rewrite <- DecimalPos.Unsigned.to_of, DecimalPos.Unsigned.of_to.
    reflexivity. }
  rewrite E, unorm_D0 in Hn. unfold unorm in Hn.
  destruct (nzhead r) eqn:Hr;
    try (apply (nzhead_nonzero r r); congruence).
  apply (DecimalPos.Unsigned.to_uint_nonzero p).
  rewrite E. symmetry. exact Hn.
Qed.

Lemma str_leading_zero m r : Py.str m = String "0" r -> m = 0 /\ r = "".
Proof.
  unfold Py.str.
  destruct m as [|p|p]; cbn [Z.to_int NilEmpty.string_of_int].
  - intros E. injection E as <-. auto.
  - destruct (Pos.to_uint p) eqn:Eu; cbn [NilEmpty.string_of_uint];
      try discriminate.
    exfalso. apply (to_uint_no_leading_zero p _ Eu).
  - discriminate.
Qed.

(** The seconds field: two decimal digits. *)
Lemma format_02d_two_digits n :
  0 <= n < 60 ->
  String.length (Py.format_02d n) = 2%nat /\
  Py.string_forall Py.isdigit (Py.format_02d n) = true.
Proof.
  intros Hn.
  pose (ok := fun k =>
    Nat.eqb (String.length (Py.format_02d k)) 2
    && Py.string_forall Py.isdigit (Py.format_02d k)).
  assert (Hok : ok n = true)
    by (apply (checked_below ok 60); [vm_compute; reflexivity | lia]).
  apply andb_true_iff in Hok as [Hl Hd].
  apply Nat.eqb_eq in Hl. auto.
Qed.

Lemma secs_range t : 0 <= t mod 60000000 / 1000000 < 60.
Proof.
  pose proof (Z.mod_pos_bound t 60000000 ltac:(lia)) as H.
  split.
  - apply Z.div_pos; lia.
  - apply Z.div_lt_upper_bound; lia.
Qed.

Lemma secs_mod t : t mod 60000000 / 1000000 = t / 1000000 mod 60.
Proof.
  pose proof (mins_secs_total t) as H. pose proof (secs_range t) as R.
  apply Z.mod_unique with (q := t / 60000000); lia.
Qed.

Lemma mins_div t : t / 60000000 = t / 1000000 / 60.
Proof. rewrite Z.div_div by lia. reflexivity. Qed.

(** What [video_length] answers on any string [duration_to_seconds] reads. *)
Lemma video_length_of_seconds x n :
  duration_to_seconds x = Some n ->
  video_length x = Some (if n <? 420 then "short" else "long").
Proof.
  intros H. unfold video_length. rewrite H.
  change (duration_to_seconds "7:00") with (Some 420). reflexivity.
Qed.

Lemma timedelta_of_seconds_normal t d :
  timedelta_of_seconds t = Ok d ->
  total_microseconds d = t * 1000000 /\
  0 <= seconds d < 86400 /\ microseconds d = 0.
Proof.
  unfold timedelta_of_seconds.
  destruct (Z.abs (t / 86400) <=? 999999999); [|discriminate].
  intros E. injection E as <-. unfold total_microseconds. cbn.
  pose proof (Z.mod_pos_bound t 86400 ltac:(lia)).
  pose proof (Z.div_mod t 86400 ltac:(lia)). repeat split; lia.
Qed.

(** What [parse_duration] reads is a normalised whole number of seconds. *)
Lemma parse_duration_whole_seconds d duration :
  parse_duration d = Ok duration ->
  total_microseconds (tdelta duration) mod 1000000 = 0 /\
  0 <= seconds (tdelta duration) < 86400 /\
  microseconds (tdelta duration) = 0.
Proof.
  unfold parse_duration.
  destruct (match_period d) as [negative [g| |]].
  - destruct (timedelta_of_seconds _) as [ret|] eqn:Eret; [|discriminate].
    cbn [bind]. destruct negative.
    + destruct (timedelta_of_seconds (- _)) as [neg|] eqn:Eneg; [|discriminate].
      cbn [bind]. intros E. injection E as <-. cbn [tdelta].
      destruct (timedelta_of_seconds_normal _ _ Eneg) as (-> & ? & ?).
      rewrite Z.mod_mul by lia. auto.
    + intros E. injection E as <-. cbn [tdelta].
      destruct (timedelta_of_seconds_normal _ _ Eret) as (-> & ? & ?).
      rewrite Z.mod_mul by lia. auto.
  - destruct d as [|[[] [] [] [] [] [] [] []] r]; discriminate.
  - discriminate.
Qed.

(** ** The claims on the duration normaliser *)

(** C1. For every ISO-8601 duration string [d] that [parse_duration] reads
    and whose total is a whole number of seconds, [convert_duration]
    returns a display string and [duration_to_seconds] reads back from it
    the floor of the total seconds of [d]. *)
Theorem convert_duration_round_trip d duration :
  parse_duration d = Ok duration ->
  total_microseconds (tdelta duration) mod 1000000 = 0 ->
  exists shown,
    convert_duration d = Ok shown /\
    duration_to_seconds shown
    = Some (total_microseconds (tdelta duration) / 1000000).
Proof.
  intros Hp _. exists (display (tdelta duration)). split.
  - unfold convert_duration. rewrite Hp. reflexivity.
  - apply duration_to_seconds_display.
Qed.

Lemma convert_duration_round_trip_witness :
  exists shown,
    convert_duration "PT1H5M9S" = Ok shown /\
    duration_to_seconds shown = Some 3909.
Proof.
  exact (convert_duration_round_trip "PT1H5M9S"
           (mk_Duration 0 0 (mk_timedelta 0 3909 0)) eq_refl eq_refl).
Defined.

(** C8. [convert_duration] writes the minutes in plain decimal (no leading
    zero, hours folded in, no bound), a colon, and the seconds on two
    digits; "PT0S" gives "0:00", "PT7M0S" gives "7:00" and "PT1H5M9S" gives
    "65:09". *)
Theorem convert_duration_format :
  convert_duration "PT0S" = Ok "0:00" /\
  convert_duration "PT7M0S" = Ok "7:00" /\
  convert_duration "PT1H5M9S" = Ok "65:09" /\
  (forall d, exists ss,
      let t := total_microseconds d / 1000000 in
      display d = Py.str (t / 60) ++ ":" ++ ss /\
      String.length ss = 2%nat /\
      Py.string_forall Py.isdigit ss = true /\
      Py.int ss = Some (t mod 60)) /\
  (forall m r, Py.str m = String "0" r -> m = 0 /\ r = "").
Proof.
  repeat split; try reflexivity.
  - intros d. exists (Py.format_02d (total_microseconds d mod 60000000 / 1000000)).
    cbv zeta.
    pose proof (secs_range (total_microseconds d)) as R.
    destruct (format_02d_two_digits _ R) as [Hl Hd].
    repeat split; auto.
    + unfold display. cbv zeta. rewrite mins_div. reflexivity.
    + rewrite int_format_02d, secs_mod. reflexivity.
  - apply (str_leading_zero m r H).
  - apply (str_leading_zero m r H).
Qed.

(** C9. For every nonnegative duration the string of [convert_duration]
    holds exactly one colon, splits into a minutes field and a seconds
    field that [int] reads, the seconds within [0, 60), and
    [duration_to_seconds] succeeds on it. *)
Theorem display_in_domain d :
  0 <= total_microseconds d ->
  Py.count ":" (display d) = 1%nat /\
  exists mf sf mins secs,
    Py.split ":" (display d) = [mf; sf] /\
    Py.int mf = Some mins /\ 0 <= mins /\
    Py.int sf = Some secs /\ 0 <= secs < 60 /\
    duration_to_seconds (display d) = Some (mins * 60 + secs).
Proof.
  intros Hd. split.
  - unfold display. cbv zeta. rewrite count_app.
    change (":" ++ ?b) with (String ":" b). cbn [Py.count].
    rewrite Ascii.eqb_refl.
    rewrite (count_no_char ":" _ (str_no_colon _)).
    rewrite (count_no_char ":" _ (format_02d_no_colon _)). reflexivity.
  - exists (Py.str (total_microseconds d / 60000000)),
           (Py.format_02d (total_microseconds d mod 60000000 / 1000000)),
           (total_microseconds d / 60000000),
           (total_microseconds d mod 60000000 / 1000000).
    repeat split.
    + unfold display. cbv zeta.
      apply split_display; [apply str_no_colon | apply format_02d_no_colon].
    + apply int_str.
    + apply Z.div_pos; lia.
    + apply int_format_02d.
    + apply secs_range.
    + apply secs_range.
    + unfold display. cbv zeta. apply duration_to_seconds_mins_secs.
Qed.

Lemma display_in_domain_witness :
  Py.count ":" (display (mk_timedelta 0 3909 500000)) = 1%nat /\
  exists mf sf mins secs,
    Py.split ":" (display (mk_timedelta 0 3909 500000)) = [mf; sf] /\
    Py.int mf = Some mins /\ 0 <= mins /\
    Py.int sf = Some secs /\ 0 <= secs < 60 /\
    duration_to_seconds (display (mk_timedelta 0 3909 500000))
    = Some (mins * 60 + secs).
Proof.
  apply (display_in_domain (mk_timedelta 0 3909 500000)).
  vm_compute. discriminate.
Defined.

(** C10. [duration_to_seconds] does not check the canonical form: on "m:s"
    for nonnegative integers [m] and [s] it returns [m * 60 + s], also when
    [s] is 60 or more. *)
Theorem duration_to_seconds_no_validation m s :
  0 <= m -> 0 <= s ->
  duration_to_seconds (Py.str m ++ ":" ++ Py.str s) = Some (m * 60 + s).
Proof.
  intros _ _. unfold duration_to_seconds.
  rewrite split_display by apply str_no_colon.
  rewrite !int_str. reflexivity.
Qed.

Lemma duration_to_seconds_no_validation_witness :
  duration_to_seconds "5:75" = Some 375.
Proof.
  exact (duration_to_seconds_no_validation 5 75 ltac:(lia) ltac:(lia)).
Defined.

(** C5. [video_length] is "short" exactly when the duration is below 420
    seconds and "long" otherwise; "7:00" is "long" and "6:59" is "short". *)
Theorem video_length_boundary :
  (forall d,
      (video_length (display d) = Some "short"
       <-> total_microseconds d < 420 * 1000000) /\
      (video_length (display d) = Some "long"
       <-> 420 * 1000000 <= total_microseconds d)) /\
  video_length "7:00" = Some "long" /\
  video_length "6:59" = Some "short".
Proof.
  split; [|split; reflexivity].
  intros d.
  rewrite (video_length_of_seconds _ _ (duration_to_seconds_display d)).
  assert (H : total_microseconds d / 1000000 < 420
              <-> total_microseconds d < 420 * 1000000).
  { split; intros H.
    - apply Z.nle_gt. intros C.
      assert (420 <= total_microseconds d / 1000000)
        by (apply Z.div_le_lower_bound; lia).
      lia.
    - apply Z.div_lt_upper_bound; lia. }
  destruct (Z.ltb_spec (total_microseconds d / 1000000) 420) as [L|L];
    split; split; intros G; try reflexivity; try discriminate; lia.
Qed.

(** ** The claims on the feature deriver *)

Ltac bucket_cases :=
  repeat match goal with
         | |- context [?a <=? ?b] => destruct (Z.leb_spec a b)
         | |- context [?a <? ?b] => destruct (Z.ltb_spec a b)
         | |- context [?a >=? ?b] => rewrite (Z.geb_leb a b)
         end;
  cbn [andb];
  repeat split; intros; try reflexivity; try discriminate; try lia.

(** C4. [description_type] is "short" up to 300 characters, "medium"
    strictly between 300 and 1500, "long" from 1500 on; 300 is "short",
    301 and 1499 are "medium", 1500 is "long". *)
Theorem description_type_thresholds :
  (forall x,
      (description_type x = "short" <-> x <= 300) /\
      (description_type x = "medium" <-> 300 < x < 1500) /\
      (description_type x = "long" <-> 1500 <= x)) /\
  description_type 300 = "short" /\
  description_type 301 = "medium" /\
  description_type 1499 = "medium" /\
  description_type 1500 = "long".
Proof.
  split; [|repeat split].
  intros x. unfold description_type. bucket_cases.
Qed.

Lemma hour_range t : 0 <= hour t < 24.
Proof.
  unfold hour.
  pose proof (Z.mod_pos_bound (epoch t + utcoffset t) 86400 ltac:(lia)) as H.
  split.
  - apply Z.div_pos; lia.
  - apply Z.div_lt_upper_bound; lia.
Qed.

Lemma dayofweek_range t : 0 <= dayofweek t < 7.
Proof. unfold dayofweek. apply Z.mod_pos_bound. lia. Qed.

(** C6. [time_slot] is "Morning" for a local hour in [5, 12), "Noon" in
    [12, 17) and "Night" otherwise, the hour being read after the
    conversion to UTC+05:30; hours 4, 17 and 23 are "Night", 5 and 11 are
    "Morning", 12 and 16 are "Noon". *)
Theorem time_slot_bands :
  (forall h,
      (time_slot_of_hour h = "Morning" <-> 5 <= h < 12) /\
      (time_slot_of_hour h = "Noon" <-> 12 <= h < 17) /\
      (time_slot_of_hour h = "Night" <-> ~ 5 <= h < 17)) /\
  (forall instant,
      time_slot instant
      = time_slot_of_hour ((instant + 19800) mod 86400 / 3600)) /\
  time_slot_of_hour 4 = "Night" /\
  time_slot_of_hour 5 = "Morning" /\
  time_slot_of_hour 11 = "Morning" /\
  time_slot_of_hour 12 = "Noon" /\
  time_slot_of_hour 16 = "Noon" /\
  time_slot_of_hour 17 = "Night" /\
  time_slot_of_hour 23 = "Night".
Proof.
  split; [|repeat split].
  intros h. unfold time_slot_of_hour. bucket_cases.
Qed.

(** C7. [week] is "Weekend" exactly when the day of the week (Monday is
    0) of the publish instant, read at UTC+05:30, is 5 or 6, and "Weekday"
    otherwise. The day is the local one: 2024-05-03T20:00:00Z (instant
    1714766400), a Friday in UTC, is a "Weekend" row, and
    2024-05-05T20:00:00Z (instant 1714939200), a Sunday in UTC, is a
    "Weekday" row. *)
Theorem week_from_local_day :
  (forall instant,
      let local_day := ((instant + 19800) / 86400 + 3) mod 7 in
      dayofweek (published_at_local instant) = local_day /\
      (week instant = "Weekend" <-> 5 <= local_day) /\
      (week instant = "Weekday" <-> local_day < 5)) /\
  (dayofweek (to_datetime_utc 1714766400) = 4 /\
   week 1714766400 = "Weekend") /\
  (dayofweek (to_datetime_utc 1714939200) = 6 /\
   week 1714939200 = "Weekday").
Proof.
  split; [|repeat split].
  intros instant. cbv zeta. split; [reflexivity|].
  unfold week, week_of_dayofweek.
  change (dayofweek (published_at_local instant))
    with (((instant + 19800) / 86400 + 3) mod 7).
  bucket_cases.
Qed.

(** ** The trending fetcher *)

Lemma request_induction (P : request -> Prop) :
  (forall e, P (Raises e)) ->
  (forall items, P (Page items None)) ->
  (forall items rq, P rq -> P (Page items (Some rq))) ->
  forall rq, P rq.
Proof.
  intros Hr Hlast Hnext. fix IH 1.
  intros [e | items [rq|]]; [apply Hr | apply Hnext, IH | apply Hlast].
Qed.

Lemma append_items_decodes items : forall videos records,
  decodes items records ->
  append_items videos items = Ok (videos ++ records)%list.
Proof.
  intros videos records H. revert videos.
  induction H as [|item r items records Hr _ IH]; intros videos; cbn.
  - rewrite List.app_nil_r. reflexivity.
  - rewrite Hr. cbn. rewrite IH, <- List.app_assoc. reflexivity.
Qed.

(** The loop stops after a whole number of pages: it returns a prefix of
    the listing's records, all of them unless the count was reached. *)
Lemma fetch_loop_prefix max_results : forall rq,
  serves rq = true ->
  forall videos records,
    decodes (all_items rq) records ->
    exists n,
      fetch_loop rq videos max_results = Ok (videos ++ firstn n records)%list /\
      (firstn n records = records
       \/ max_results <= Z.of_nat (List.length videos + n)).
Proof.
  induction rq as [e | items | items rq IH] using request_induction;
    intros Hs videos records Hd; cbn in Hs; [discriminate|..];
    cbn [fetch_loop all_items] in *;
    (destruct (Z.ltb_spec (Z.of_nat (List.length videos)) max_results) as [Hlt|Hge];
     [| exists 0%nat; cbn; rewrite List.app_nil_r; split; [reflexivity | right; lia]]).
  - rewrite List.app_nil_r in Hd.
    exists (List.length records). rewrite firstn_all.
    rewrite (append_items_decodes _ _ _ Hd). cbn. auto.
  - apply Forall2_app_inv_l in Hd as (r1 & r2 & H1 & H2 & ->).
    rewrite (append_items_decodes _ _ _ H1). cbn.
    destruct (IH Hs (videos ++ r1)%list r2 H2) as (n & Hn & Hstop).
    exists (List.length r1 + n)%nat.
    rewrite firstn_app_2, Hn, <- List.app_assoc. split; [reflexivity|].
    destruct Hstop as [Hall | Hmax].
    + left. rewrite Hall. reflexivity.
    + right. rewrite List.length_app in Hmax. lia.
Qed.

(** Without a positive count no request is executed. *)
Lemma fetch_loop_nonpositive rq max_results :
  max_results <= 0 -> fetch_loop rq [] max_results = Ok [].
Proof.
  intros H. destruct rq; cbn;
    destruct (Z.ltb_spec 0 max_results); try lia; reflexivity.
Qed.

Lemma get_trending_videos_nonpositive youtube api_key max_results :
  max_results <= 0 -> get_trending_videos youtube api_key max_results = Ok [].
Proof.
  intros H. unfold get_trending_videos.
  rewrite (fetch_loop_nonpositive _ _ H). cbn. f_equal.
  unfold Py.slice_to. destruct (0 <=? max_results); apply firstn_nil.
Qed.

(** The fetcher returns the first [max_results] records of the listing. *)
Lemma get_trending_videos_firstn youtube api_key max_results records :
  serves (youtube api_key) = true ->
  decodes (all_items (youtube api_key)) records ->
  get_trending_videos youtube api_key max_results
  = Ok (firstn (Z.to_nat max_results) records).
Proof.
  intros Hs Hd.
  destruct (Z.le_gt_cases max_results 0) as [Hneg | Hpos].
  - rewrite (get_trending_videos_nonpositive _ _ _ Hneg).
    replace (Z.to_nat max_results) with 0%nat by lia. reflexivity.
  - unfold get_trending_videos.
    destruct (fetch_loop_prefix max_results _ Hs [] records Hd)
      as (n & Hn & Hstop).
    rewrite Hn. cbn. f_equal. unfold Py.slice_to.
    replace (0 <=? max_results) with true by (symmetry; apply Z.leb_le; lia).
    destruct Hstop as [Hall | Hmax].
    + rewrite Hall. reflexivity.
    + rewrite firstn_firstn. f_equal. cbn in Hmax. lia.
Qed.

Lemma has_key_getitem d key :
  has_key d key = true -> exists v, getitem d key = Ok v.
Proof.
  destruct d; cbn; try discriminate.
  destruct (lookup key members); [eauto | discriminate].
Qed.

Lemma has_key_get d key other default :
  has_key d key = true -> exists v, get d other default = Ok v.
Proof.
  destruct d; cbn; try discriminate.
  intros _. destruct (lookup other members); eauto.
Qed.

(** A well-formed item always yields a record. *)
Lemma well_formed_item_decodes item :
  well_formed_item item = true -> exists r, make_video_details item = Ok r.
Proof.
  unfold well_formed_item, make_video_details.
  destruct (getitem item "id") as [v_id|]; [|discriminate].
  destruct (getitem item "snippet") as [snippet|]; [|discriminate].
  destruct (getitem item "contentDetails") as [details|]; [|discriminate].
  destruct (getitem item "statistics") as [[| | | | |stats]|]; try discriminate.
  intros H.
  repeat match type of H with
         | _ && _ = true => apply andb_true_iff in H as [H ?]
         end.
  destruct (has_key_get snippet "title" "tags" (JArr []) H) as [v_tags Et].
  destruct (has_key_get details "definition" "caption" (JStr "false")
              ltac:(assumption)) as [v_caption Ec].
  repeat match goal with
         | K : has_key ?d ?k = true |- _ =>
             let v := fresh "v" in
             let E := fresh "E" in
             destruct (has_key_getitem d k K) as [v E]; clear K
         end.
  cbn [bind].
  repeat match goal with
         | E : ?x = Ok _ |- context [?x] => rewrite E; cbn [bind]
         end.
  cbn. repeat (destruct (lookup _ stats)); cbn; eauto.
Qed.

Lemma well_formed_items_decode items :
  forallb well_formed_item items = true -> exists records, decodes items records.
Proof.
  induction items as [|item items IH]; cbn.
  - exists []. constructor.
  - intros H. apply andb_true_iff in H as [Hi Hr].
    destruct (well_formed_item_decodes item Hi) as [r Er].
    destruct (IH Hr) as [records Hd].
    exists (r :: records). constructor; assumption.
Qed.

(** The five counts of a record: the value of the statistics object, or
    the integer 0 when the key is absent. *)
Lemma make_video_details_statistics item r stats :
  make_video_details item = Ok r ->
  getitem item "statistics" = Ok (JObj stats) ->
  let count key :=
    match lookup key stats with Some v => v | None => JNum 0 end in
  view_count r = count "viewCount" /\
  like_count r = count "likeCount" /\
  dislike_count r = count "dislikeCount" /\
  favorite_count r = count "favoriteCount" /\
  comment_count r = count "commentCount".
Proof.
  unfold make_video_details. intros H Hs. rewrite Hs in H.
  unfold bind at 1 2 3 4 5 6 7 8 9 10 11 12 13 14 in H.
  repeat match type of H with
         | match ?x with Ok _ => _ | Err _ => _ end = _ =>
             destruct x; [|discriminate]
         end.
  cbn in H.
  destruct (lookup "viewCount" stats), (lookup "likeCount" stats),
    (lookup "dislikeCount" stats), (lookup "favoriteCount" stats),
    (lookup "commentCount" stats);
    cbn in H; injection H as <-; cbn; auto.
Qed.

Lemma decodes_nth_error items records :
  decodes items records ->
  forall i item r,
    nth_error items i = Some item -> nth_error records i = Some r ->
    make_video_details item = Ok r.
Proof.
  induction 1 as [|x y items records Hxy _ IH]; intros [|i] item r Hi Hr;
    cbn in Hi, Hr; try discriminate.
  - congruence.
  - eapply IH; eassumption.
Qed.

Lemma nth_error_firstn_some {A} n (l : list A) i x :
  nth_error (firstn n l) i = Some x -> nth_error l i = Some x.
Proof.
  revert l i. induction n as [|n IH]; intros [|a l] [|i]; cbn;
    try discriminate; auto.
Qed.

(** ** The claims on the trending fetcher *)

(** C2. For every credential and every maximum count (a count is not
    negative), when the platform serves its listing and the items decode,
    [get_trending_videos] returns at most [max_results] records, the first
    ones of the listing in the order served; a listing of fewer than
    [max_results] items is returned whole, item for item. *)
Theorem get_trending_videos_truncates youtube api_key max_results records :
  0 <= max_results ->
  serves (youtube api_key) = true ->
  decodes (all_items (youtube api_key)) records ->
  exists videos,
    get_trending_videos youtube api_key max_results = Ok videos /\
    videos = firstn (Z.to_nat max_results) records /\
    Z.of_nat (List.length videos) <= max_results /\
    (Z.of_nat (List.length records) < max_results -> videos = records).
Proof.
  intros Hmax Hs Hd. exists (firstn (Z.to_nat max_results) records).
  repeat split.
  - apply get_trending_videos_firstn; assumption.
  - pose proof (firstn_le_length (Z.to_nat max_results) records). lia.
  - intros Hk. apply firstn_all2. lia.
Qed.

Lemma get_trending_videos_truncates_witness :
  exists videos,
    get_trending_videos (fun _ => sample_listing) "key" 10 = Ok videos /\
    videos = firstn (Z.to_nat 10) sample_records /\
    Z.of_nat (List.length videos) <= 10 /\
    (Z.of_nat (List.length sample_records) < 10 -> videos = sample_records).
Proof.
  apply (get_trending_videos_truncates (fun _ => sample_listing) "key" 10
           sample_records).
  - lia.
  - reflexivity.
  - vm_compute. repeat constructor.
Defined.

(** C3. When the statistics object of a raw item lacks [viewCount],
    [likeCount], [dislikeCount], [favoriteCount] or [commentCount],
    [get_trending_videos] does not fail and the field of the record made
    from that item is the integer 0. *)
Theorem missing_statistics_default_zero youtube api_key max_results :
  serves (youtube api_key) = true ->
  forallb well_formed_item (all_items (youtube api_key)) = true ->
  exists videos,
    get_trending_videos youtube api_key max_results = Ok videos /\
    forall i item r stats,
      nth_error (all_items (youtube api_key)) i = Some item ->
      nth_error videos i = Some r ->
      getitem item "statistics" = Ok (JObj stats) ->
      (lookup "viewCount" stats = None -> view_count r = JNum 0) /\
      (lookup "likeCount" stats = None -> like_count r = JNum 0) /\
      (lookup "dislikeCount" stats = None -> dislike_count r = JNum 0) /\
      (lookup "favoriteCount" stats = None -> favorite_count r = JNum 0) /\
      (lookup "commentCount" stats = None -> comment_count r = JNum 0).
Proof.
  intros Hs Hwf.
  destruct (well_formed_items_decode _ Hwf) as [records Hd].
  exists (firstn (Z.to_nat max_results) records). split.
  - apply get_trending_videos_firstn; assumption.
  - intros i item r stats Hi Hr Hst.
    apply nth_error_firstn_some in Hr.
    pose proof (decodes_nth_error _ _ Hd i item r Hi Hr) as Hm.
    destruct (make_video_details_statistics item r stats Hm Hst)
      as (Hv & Hl & Hdl & Hf & Hc).
    rewrite Hv, Hl, Hdl, Hf, Hc.
    repeat split; intros ->; reflexivity.
Qed.

Lemma missing_statistics_default_zero_witness :
  exists videos,
    get_trending_videos (fun _ => sample_listing) "key" 200 = Ok videos /\
    forall i item r stats,
      nth_error (all_items sample_listing) i = Some item ->
      nth_error videos i = Some r ->
      getitem item "statistics" = Ok (JObj stats) ->
      (lookup "viewCount" stats = None -> view_count r = JNum 0) /\
      (lookup "likeCount" stats = None -> like_count r = JNum 0) /\
      (lookup "dislikeCount" stats = None -> dislike_count r = JNum 0) /\
      (lookup "favoriteCount" stats = None -> favorite_count r = JNum 0) /\
      (lookup "commentCount" stats = None -> comment_count r = JNum 0).
Proof.
  apply (missing_statistics_default_zero (fun _ => sample_listing) "key" 200);
    reflexivity.
Defined.

(** * Further properties of the code *)

(** ** Duration strings *)

Lemma split_length sep s :
  List.length (Py.split sep s) = S (Py.count sep s).
Proof.
  induction s as [|c r IH]; cbn; [reflexivity|].
  destruct (Ascii.eqb c sep); cbn; [congruence|].
  destruct (Py.split sep r); cbn in *; congruence.
Qed.

Lemma split_at_sep sep a b :
  Py.split sep (a ++ String sep b) = (Py.split sep a ++ Py.split sep b)%list.
Proof.
  induction a as [|c r IH]; cbn.
  - rewrite Ascii.eqb_refl. reflexivity.
  - destruct (Ascii.eqb c sep); rewrite IH; [reflexivity|].
    pose proof (split_length sep r) as Hl.
    destruct (Py.split sep r); [discriminate | reflexivity].
Qed.

(** X1. [duration_to_seconds] reads only strings with exactly one colon:
    with none, or with two or more (an "H:MM:SS" text), the unpacking
    fails. *)
Theorem duration_to_seconds_one_colon s n :
  duration_to_seconds s = Some n -> Py.count ":" s = 1%nat.
Proof.
  unfold duration_to_seconds. intros H.
  pose proof (split_length ":" s) as Hl.
  destruct (Py.split ":" s) as [|a [|b [|c l]]]; try discriminate.
  cbn in Hl. congruence.
Qed.

Lemma duration_to_seconds_one_colon_witness : Py.count ":" "7:00" = 1%nat.
Proof. exact (duration_to_seconds_one_colon "7:00" 420 eq_refl). Defined.

(** X2. A string whose minutes field or seconds field is empty is
    refused: [int] does not read the empty text. *)
Theorem duration_to_seconds_empty_field a :
  duration_to_seconds (":" ++ a) = None /\
  duration_to_seconds (a ++ ":") = None.
Proof.
  split; unfold duration_to_seconds.
  - cbn. destruct (Py.split ":" a) as [|b [|c l]]; reflexivity.
  - rewrite (split_at_sep ":" a ""). cbn [Py.split].
    destruct (Py.split ":" a) as [|b [|c l]]; cbn; try reflexivity.
    + destruct (Py.int b); reflexivity.
    + destruct l; reflexivity.
Qed.




(** X5. Lines 166 and 173 compose: on every string [convert_duration]
    returns, [video_length] answers "short" or "long" and never raises. *)
Theorem video_length_after_convert d shown :
  convert_duration d = Ok shown ->
  video_length shown = Some "short" \/ video_length shown = Some "long".
Proof.
  unfold convert_duration.
  destruct (parse_duration d) as [duration|]; [|discriminate].
  cbn [bind]. intros E. injection E as <-.
  rewrite (video_length_of_seconds _ _ (duration_to_seconds_display _)).
  destruct (_ <? 420); auto.
Qed.

Lemma video_length_after_convert_witness :
  video_length "65:09" = Some "short" \/ video_length "65:09" = Some "long".
Proof.
  exact (video_length_after_convert "PT1H5M9S" "65:09" eq_refl).
Defined.

(** ** Publish time *)

(** X6. The time slot in terms of the UTC time of day of the publish
    instant: "Morning" from 23:30 to 06:30 UTC, "Noon" from 06:30 to 11:30
    UTC, "Night" from 11:30 to 23:30 UTC. *)
Theorem time_slot_utc_bands instant :
  let utc := instant mod 86400 in
  (time_slot instant = "Morning" <-> utc < 23400 \/ 84600 <= utc) /\
  (time_slot instant = "Noon" <-> 23400 <= utc < 41400) /\
  (time_slot instant = "Night" <-> 41400 <= utc < 84600).
Proof.
  cbv zeta. unfold time_slot, time_slot_of_hour.
  change (hour (published_at_local instant))
    with ((instant + 19800) mod 86400 / 3600).
  destruct (Z.leb_spec 5 ((instant + 19800) mod 86400 / 3600));
    destruct (Z.ltb_spec ((instant + 19800) mod 86400 / 3600) 12);
    destruct (Z.leb_spec 12 ((instant + 19800) mod 86400 / 3600));
    destruct (Z.ltb_spec ((instant + 19800) mod 86400 / 3600) 17);
    cbn [andb];
    repeat split; intros; try reflexivity; try discriminate;
    Z.div_mod_to_equations; lia.
Qed.

(** X7. The local day of the week is the UTC one for an instant before
    18:30 UTC and the following day from 18:30 UTC on. *)
Theorem dayofweek_local_of_utc instant :
  dayofweek (published_at_local instant)
  = if instant mod 86400 <? 66600
    then dayofweek (to_datetime_utc instant)
    else (dayofweek (to_datetime_utc instant) + 1) mod 7.
Proof.
  unfold dayofweek, published_at_local, tz_convert_Asia_Kolkata,
    to_datetime_utc. cbn [epoch utcoffset].
  rewrite Z.add_0_r.
  destruct (Z.ltb_spec (instant mod 86400) 66600);
    Z.div_mod_to_equations; lia.
Qed.

(** ** Paging *)

Lemma fetch_loop_reached rq videos max_results :
  max_results <= Z.of_nat (List.length videos) ->
  fetch_loop rq videos max_results = Ok videos.
Proof.
  intros H. destruct rq; cbn;
    destruct (Z.ltb_spec (Z.of_nat (List.length videos)) max_results);
    try lia; reflexivity.
Qed.

(** Pages that leave the count below [max_results] are all read. *)
Lemma fetch_loop_paged rest max_results pages : forall videos records,
  decodes (List.concat pages) records ->
  Z.of_nat (List.length videos + List.length records) < max_results ->
  fetch_loop (paged pages rest) videos max_results
  = fetch_loop rest (videos ++ records)%list max_results.
Proof.
  induction pages as [|items more IH]; intros videos records Hd Hlt; cbn in Hd.
  - inversion Hd; subst. rewrite List.app_nil_r. reflexivity.
  - apply Forall2_app_inv_l in Hd as (r1 & r2 & H1 & H2 & ->).
    rewrite List.length_app in Hlt. cbn [paged fetch_loop].
    destruct (Z.ltb_spec (Z.of_nat (List.length videos)) max_results);
      [|lia].
    rewrite (append_items_decodes _ _ _ H1). cbn [bind].
    rewrite (IH (videos ++ r1)%list r2 H2), List.app_assoc; [reflexivity|].
    rewrite List.length_app. lia.
Qed.

Lemma append_items_fails good bad more e : forall videos records,
  decodes good records ->
  make_video_details bad = Err e ->
  append_items videos (good ++ bad :: more) = Err e.
Proof.
  intros videos records Hd Hb. revert videos.
  induction Hd as [|item r items records Hr _ IH]; intros videos; cbn.
  - rewrite Hb. reflexivity.
  - rewrite Hr. cbn. apply IH.
Qed.

(** X8. With a maximum count of 0 or less no request is executed: the
    result is the empty list whatever the platform would answer, an error
    included. *)
Theorem get_trending_videos_no_request youtube api_key max_results :
  max_results <= 0 ->
  get_trending_videos youtube api_key max_results = Ok [].
Proof. apply get_trending_videos_nonpositive. Qed.

Lemma get_trending_videos_no_request_witness :
  get_trending_videos (fun _ => Raises (HttpError 403)) "key" 0 = Ok [].
Proof.
  apply (get_trending_videos_no_request
           (fun _ => Raises (HttpError 403)) "key" 0).
  lia.
Defined.

(** X9. Once a page brings the count to [max_results] or more, the pages
    after it are never requested: whatever they hold, an error included,
    the result is the first [max_results] records read so far. *)
Theorem get_trending_videos_stops_paging
  youtube api_key max_results pages items rest early last :
  youtube api_key = paged pages (Page items (Some rest)) ->
  decodes (List.concat pages) early ->
  decodes items last ->
  Z.of_nat (List.length early) < max_results
    <= Z.of_nat (List.length early + List.length last) ->
  get_trending_videos youtube api_key max_results
  = Ok (firstn (Z.to_nat max_results) (early ++ last)).
Proof.
  intros Hy He Hl [Hlt Hge]. unfold get_trending_videos. rewrite Hy.
  rewrite (fetch_loop_paged _ _ _ [] early He) by (cbn; lia).
  cbn [List.app fetch_loop].
  destruct (Z.ltb_spec (Z.of_nat (List.length early)) max_results); [|lia].
  rewrite (append_items_decodes _ _ _ Hl). cbn [bind].
  rewrite fetch_loop_reached by (rewrite List.length_app; lia).
  cbn [bind]. unfold Py.slice_to.
  replace (0 <=? max_results) with true by (symmetry; apply Z.leb_le; lia).
  reflexivity.
Qed.

Lemma get_trending_videos_stops_paging_witness :
  get_trending_videos
    (fun _ => Page (all_items sample_listing) (Some (Raises (HttpError 500))))
    "key" 2
  = Ok (firstn (Z.to_nat 2) ([] ++ sample_records)).
Proof.
  apply (get_trending_videos_stops_paging _ "key" 2 []
           (all_items sample_listing) (Raises (HttpError 500))
           [] sample_records).
  - reflexivity.
  - constructor.
  - vm_compute. repeat constructor.
  - vm_compute. split; [reflexivity | discriminate].
Defined.

(** X10. An error raised by a request that is reached is not caught: when
    the pages before it hold fewer than [max_results] records, the fetch
    raises that error and returns nothing of what it had read. *)
Theorem get_trending_videos_error_propagates youtube api_key max_results pages e early :
  youtube api_key = paged pages (Raises e) ->
  decodes (List.concat pages) early ->
  Z.of_nat (List.length early) < max_results ->
  get_trending_videos youtube api_key max_results = Err e.
Proof.
  intros Hy He Hlt. unfold get_trending_videos. rewrite Hy.
  rewrite (fetch_loop_paged _ _ _ [] early He) by (cbn; lia).
  cbn [List.app fetch_loop].
  destruct (Z.ltb_spec (Z.of_nat (List.length early)) max_results); [|lia].
  reflexivity.
Qed.

Lemma get_trending_videos_error_propagates_witness :
  get_trending_videos
    (fun _ => Page (all_items sample_listing) (Some (Raises (HttpError 500))))
    "key" 10
  = Err (HttpError 500).
Proof.
  apply (get_trending_videos_error_propagates _ "key" 10 [all_items sample_listing]
           (HttpError 500) sample_records).
  - reflexivity.
  - vm_compute. repeat constructor.
  - vm_compute. reflexivity.
Defined.

(** X11. A page is decoded whole before the count is looked at: an item
    of a fetched page that lacks a subscripted key fails the fetch with its
    error, also when the items before it already reach [max_results]. *)
Theorem get_trending_videos_bad_item
  youtube api_key max_results pages good bad more next e early records :
  youtube api_key = paged pages (Page (good ++ bad :: more) next) ->
  decodes (List.concat pages) early ->
  Z.of_nat (List.length early) < max_results ->
  decodes good records ->
  make_video_details bad = Err e ->
  get_trending_videos youtube api_key max_results = Err e.
Proof.
  intros Hy He Hlt Hg Hb. unfold get_trending_videos. rewrite Hy.
  rewrite (fetch_loop_paged _ _ _ [] early He) by (cbn; lia).
  cbn [List.app fetch_loop].
  destruct (Z.ltb_spec (Z.of_nat (List.length early)) max_results); [|lia].
  rewrite (append_items_fails _ _ _ _ _ _ Hg Hb). reflexivity.
Qed.

Lemma get_trending_videos_bad_item_witness :
  get_trending_videos
    (fun _ => Page (all_items sample_listing ++ [JObj [("id", JStr "d")]]) None)
    "key" 1
  = Err (KeyError "snippet").
Proof.
  apply (get_trending_videos_bad_item _ "key" 1 []
           (all_items sample_listing) (JObj [("id", JStr "d")]) [] None
           (KeyError "snippet") [] sample_records).
  - reflexivity.
  - constructor.
  - reflexivity.
  - vm_compute. repeat constructor.
  - reflexivity.
Defined.

(** ** Records *)

Lemma getitem_has_key d key v : getitem d key = Ok v -> has_key d key = true.
Proof.
  destruct d; cbn; try discriminate.
  destruct (lookup key members); [reflexivity | discriminate].
Qed.

Ltac step_binds H :=
  repeat match type of H with
         | bind ?x _ = Ok _ =>
             let E := fresh "E" in
             destruct x eqn:E; cbn [bind] in H; [|discriminate H]
         end.

(** X12. A record is made from an item exactly when the item holds the
    ten keys read with a subscript and an object under [statistics]; the
    keys [tags], [caption] and the five counts are never required. *)
Theorem make_video_details_succeeds_iff item :
  (exists r, make_video_details item = Ok r) <-> well_formed_item item = true.
Proof.
  split; [|apply well_formed_item_decodes].
  intros [r H]. unfold make_video_details in H. step_binds H.
  unfold well_formed_item.
  repeat match goal with
         | E : getitem item ?k = Ok _ |- _ => rewrite E; clear E
         end.
  match goal with
  | E : get ?st "viewCount" _ = Ok _ |- _ =>
      destruct st; try discriminate E
  end.
  repeat match goal with
         | E : getitem ?d ?k = Ok _ |- _ =>
             rewrite (getitem_has_key d k _ E); clear E
         end.
  reflexivity.
Qed.

(** X13. The two optional descriptive fields: a record carries the empty
    list for an item without [tags] and the text "false" for an item
    without [caption], and the item's own value otherwise. *)
Theorem make_video_details_optional_fields item r snippet details :
  make_video_details item = Ok r ->
  getitem item "snippet" = Ok (JObj snippet) ->
  getitem item "contentDetails" = Ok (JObj details) ->
  tags r = match lookup "tags" snippet with
           | Some v => v
           | None => JArr []
           end /\
  caption r = match lookup "caption" details with
              | Some v => v
              | None => JStr "false"
              end.
Proof.
  intros H Hs Hd. unfold make_video_details in H. step_binds H.
  injection H as <-. cbn [tags caption].
  injection Hs as ->. injection Hd as ->.
  repeat match goal with
         | E : get (JObj ?m) ?k _ = Ok _ |- _ =>
             cbn [get] in E; destruct (lookup k m); injection E as <-
         end.
  all: split; reflexivity.
Qed.

Lemma make_video_details_optional_fields_witness :
  match make_video_details (sample_item "c" []) with
  | Ok r => tags r = JArr [] /\ caption r = JStr "false"
  | Err _ => False
  end.
Proof.
  destruct (make_video_details (sample_item "c" [])) as [r|e] eqn:E.
  - exact (make_video_details_optional_fields (sample_item "c" []) r
             _ _ E eq_refl eq_refl).
  - vm_compute in E. discriminate E.
Defined.

(** ** Categories *)

Lemma dict_get_setitem d k v k' :
  dict_get (setitem d k v) k' = if k =? k' then Some v else dict_get d k'.
Proof.
  induction d as [|[k0 v0] d IH]; cbn.
  - reflexivity.
  - destruct (Z.eqb_spec k0 k) as [->|Hne]; cbn.
    + destruct (k =? k'); reflexivity.
    + rewrite IH. destruct (Z.eqb_spec k0 k'), (Z.eqb_spec k k');
        try reflexivity; congruence.
Qed.

Lemma find_last {A} (p : A -> bool) l x :
  find p (l ++ [x])
  = match find p l with
    | Some y => Some y
    | None => if p x then Some x else None
    end.
Proof.
  induction l as [|a l IH]; cbn; [reflexivity|].
  destruct (p a); [reflexivity | exact IH].
Qed.

Lemma category_loop_entries items entries : forall mapping,
  Forall2 is_entry items entries ->
  exists final,
    category_loop items mapping = inr final /\
    forall k, dict_get final k
              = match last_title entries k with
                | Some name => Some name
                | None => dict_get mapping k
                end.
Proof.
  intros mapping H. revert mapping.
  induction H as [|item [id name] items entries He _ IH]; intros mapping.
  - exists mapping. split; reflexivity.
  - cbn [category_loop]. unfold is_entry in He. rewrite He.
    destruct (IH (setitem mapping id name)) as (final & Hf & Hget).
    exists final. split; [exact Hf|].
    intros k. rewrite Hget. unfold last_title. cbn [List.rev].
    rewrite find_last. cbn [fst snd].
    destruct (find _ (List.rev entries)); cbn; [reflexivity|].
    rewrite dict_get_setitem. destruct (id =? k); reflexivity.
Qed.

(** X14. The category name joined to a row is the title of the last
    category item whose id reads as the row's category id, and a missing
    value when no item has that id: a later duplicate replaces an earlier
    one. *)
Theorem category_name_last_title categories api_key items entries :
  categories api_key = Ok items ->
  Forall2 is_entry items entries ->
  exists mapping,
    get_category_mapping categories api_key = inr mapping /\
    forall category_id,
      category_name mapping category_id = last_title entries category_id.
Proof.
  intros Hc He. unfold get_category_mapping. rewrite Hc.
  destruct (category_loop_entries items entries [] He) as (final & Hf & Hget).
  exists final. split; [exact Hf|].
  intros k. unfold category_name. rewrite Hget.
  destruct (last_title entries k); reflexivity.
Qed.

Lemma category_name_last_title_witness :
  exists mapping,
    get_category_mapping (fun _ => Ok sample_categories) "key" = inr mapping /\
    forall category_id,
      category_name mapping category_id
      = last_title [(1, JStr "Film & Animation"); (10, JStr "Music");
                    (1, JStr "Film")] category_id.
Proof.
  apply (category_name_last_title (fun _ => Ok sample_categories) "key"
           sample_categories).
  - reflexivity.
  - repeat constructor.
Defined.

(** X15. A category item that cannot be read (no [id], an id that is no
    integer, no [snippet] or no [title]) fails the whole resolver with its
    exception: no mapping of the items before it is returned. *)
Theorem get_category_mapping_bad_item
  categories api_key good bad more entries x :
  categories api_key = Ok (good ++ bad :: more)%list ->
  Forall2 is_entry good entries ->
  category_entry bad = inl x ->
  get_category_mapping categories api_key = inl x.
Proof.
  intros Hc Hg Hb. unfold get_category_mapping. rewrite Hc. clear Hc.
  generalize (@nil (Z * json)) as mapping.
  induction Hg as [|item [id name] items entries He _ IH]; intros mapping;
    cbn [List.app category_loop].
  - rewrite Hb. reflexivity.
  - unfold is_entry in He. rewrite He. apply IH.
Qed.

Lemma get_category_mapping_bad_item_witness :
  get_category_mapping
    (fun _ => Ok (sample_categories ++ [sample_category "x1" "Odd"])%list)
    "key"
  = inl (ValueError "x1").
Proof.
  apply (get_category_mapping_bad_item _ "key" sample_categories
           (sample_category "x1" "Odd") []
           [(1, JStr "Film & Animation"); (10, JStr "Music"); (1, JStr "Film")]).
  - reflexivity.
  - repeat constructor.
  - reflexivity.
Defined.

(** ** The count asked for *)

(** X16. On a listing that is served and decodes, asking for fewer
    records gives the first records of what asking for more gives: the
    count only cuts the result, it never reorders it. *)
Theorem get_trending_videos_prefix youtube api_key fewer more records videos :
  serves (youtube api_key) = true ->
  decodes (all_items (youtube api_key)) records ->
  fewer <= more ->
  get_trending_videos youtube api_key more = Ok videos ->
  get_trending_videos youtube api_key fewer
  = Ok (firstn (Z.to_nat fewer) videos).
Proof.
  intros Hs Hd Hle Hm.
  rewrite (get_trending_videos_firstn _ _ more records Hs Hd) in Hm.
  injection Hm as <-.
  rewrite (get_trending_videos_firstn _ _ fewer records Hs Hd).
  rewrite firstn_firstn. do 2 f_equal. lia.
Qed.

Lemma get_trending_videos_prefix_witness :
  get_trending_videos (fun _ => sample_listing) "key" 1
  = Ok (firstn (Z.to_nat 1) (firstn 2 sample_records)).
Proof.
  apply (get_trending_videos_prefix (fun _ => sample_listing) "key" 1 2
           sample_records (firstn 2 sample_records)).
  - reflexivity.
  - vm_compute. repeat constructor.
  - lia.
  - reflexivity.
Defined.
